(** * Multi-agent grant-document pipeline: a shallow embedding

    The development follows the Python sources under [agents/] and
    [ingestion/vector_store.py]:

    - [Py]                 the few [str] methods the agents rely on;
    - data model           [Metadata], [Doc], [Citation], [State];
    - [External]           the two outbound calls (similarity search, LLM),
                           with state passing and a trace of the calls made;
    - [Supervisor], [DocumentRetriever], [CrossDocument], [QA],
      [SourceTracker]      one module per agent class.

    Text is modelled by [string], a sequence of 8-bit characters.  Code
    points outside ASCII are carried as their UTF-8 bytes (this is how the
    keyword tables below are written); case mapping, digits and whitespace
    are those of the ASCII range, so the string layer agrees with CPython
    on ASCII text. *)

From Stdlib Require Import String Ascii List ZArith Lia Bool Permutation.
From stdpp Require Import gmap strings list pretty.

Set Warnings "-clear-no-such-hyp".

Open Scope string_scope.

(* ===================================================================== *)
(** * Python [str] methods *)
(* ===================================================================== *)

Module Py.

Definition code (c : ascii) : N := N_of_ascii c.

Definition is_upper (c : ascii) : bool := (65 <=? code c)%N && (code c <=? 90)%N.
Definition is_lower (c : ascii) : bool := (97 <=? code c)%N && (code c <=? 122)%N.
Definition is_digit (c : ascii) : bool := (48 <=? code c)%N && (code c <=? 57)%N.

(** [str.isspace] on the ASCII range: TAB, LF, VT, FF, CR, the four
    separators FS, GS, RS, US, and the blank. *)
Definition is_space (c : ascii) : bool :=
  ((9 <=? code c)%N && (code c <=? 13)%N)
  || ((28 <=? code c)%N && (code c <=? 32)%N).

Definition lower_char (c : ascii) : ascii :=
  if is_upper c then ascii_of_N (code c + 32) else c.
Definition upper_char (c : ascii) : ascii :=
  if is_lower c then ascii_of_N (code c - 32) else c.

Fixpoint map_chars (f : ascii -> ascii) (s : string) : string :=
  match s with
  | EmptyString => EmptyString
  | String c s' => String (f c) (map_chars f s')
  end.

(** [s.lower()] and [s.upper()]. *)
Definition lower : string -> string := map_chars lower_char.
Definition upper : string -> string := map_chars upper_char.

(** [s.split()] without argument: maximal runs of non-blank characters.
    [w] is the word being read. *)
Fixpoint split_from (w : string) (s : string) : list string :=
  match s with
  | EmptyString => match w with EmptyString => [] | _ => [w] end
  | String c s' =>
      if is_space c
      then match w with
           | EmptyString => split_from EmptyString s'
           | _ => w :: split_from EmptyString s'
           end
      else split_from (w ++ String c EmptyString) s'
  end.
Definition split (s : string) : list string := split_from EmptyString s.

Fixpoint lstrip (s : string) : string :=
  match s with
  | String c s' => if is_space c then lstrip s' else s
  | EmptyString => EmptyString
  end.
Definition rstrip (s : string) : string := String.rev (lstrip (String.rev s)).
(** [s.strip()]. *)
Definition strip (s : string) : string := rstrip (lstrip s).

(** [needle in hay]. *)
Fixpoint contains (needle hay : string) : bool :=
  String.prefix needle hay
  || match hay with
     | EmptyString => false
     | String _ hay' => contains needle hay'
     end.

(** [s.replace(old, new)] for a non-empty [old]: occurrences are replaced
    from left to right without overlap.  [skip] counts the characters of
    the occurrence just replaced that are still to be dropped. *)
Fixpoint replace_from (old new : string) (skip : nat) (s : string) : string :=
  match s with
  | EmptyString => EmptyString
  | String c s' =>
      match skip with
      | S k => replace_from old new k s'
      | O =>
          if String.prefix old s
          then new ++ replace_from old new (String.length old - 1) s'
          else String c (replace_from old new 0 s')
      end
  end.
Definition replace (old new s : string) : string := replace_from old new 0 s.

(** [s[:n]]. *)
Definition take (n : nat) (s : string) : string := String.substring 0 n s.

(** Truthiness of a string: [bool(s)]. *)
Definition truthy (s : string) : bool :=
  match s with EmptyString => false | _ => true end.

(** [x in table] for a list of strings. *)
Definition in_list (x : string) (table : list string) : bool :=
  existsb (String.eqb x) table.

(** [sum(1 for x in xs if p(x))]. *)
Definition count {A} (p : A -> bool) (xs : list A) : nat :=
  length (List.filter p xs).

End Py.

(* ===================================================================== *)
(** * Data model *)
(* ===================================================================== *)

(** A metadata value that is either a string or an integer (page numbers
    are written as strings by the PDF loader, chunk indices as integers). *)
Inductive PyVal := PStr (s : string) | PInt (n : Z).

#[global] Instance PyVal_eq_dec : EqDecision PyVal.
Proof. solve_decision. Defined.

#[global] Instance PyVal_countable : Countable PyVal.
Proof.
  refine (inj_countable'
            (fun v => match v with PStr s => inl s | PInt n => inr n end)
            (fun x => match x with inl s => PStr s | inr n => PInt n end) _).
  intros []; reflexivity.
Defined.

(** [bool(v)] and [str(v)]. *)
Definition pyval_truthy (v : PyVal) : bool :=
  match v with PStr s => Py.truthy s | PInt n => negb (n =? 0)%Z end.
Definition pyval_str (v : PyVal) : string :=
  match v with PStr s => s | PInt n => pretty n end.

(** The metadata mapping of a document; [None] is an absent key. *)
Record Metadata := mkMetadata {
  source : option string;
  filename : option string;
  page_number : option PyVal;
  page : option PyVal;
  grant_group : option string;
  document_type : option string;
  chunk_index : option Z
}.

Definition no_metadata : Metadata := mkMetadata None None None None None None None.

(** What the search backend returns: [Document(page_content, metadata)]. *)
Record LDoc := mkLDoc {
  page_content : string;
  ldoc_metadata : Metadata
}.

(** Similarity scores are floating-point numbers that the pipeline only
    copies; they are kept as an opaque decimal text. *)
Definition Score := string.
Definition score_zero : Score := "0.0".

(** A Document Record: the dict [{"content": ..., "metadata": ...}], with
    the optional key [similarity_score]. *)
Record Doc := mkDoc {
  content : string;
  metadata : Metadata;
  similarity_score : option Score
}.

(** A Citation Record. *)
Record Citation := mkCitation {
  cit_clean_source : string;
  cit_page : string;
  cit_source_path : string;
  cit_chunk_index : Z;
  cit_similarity_score : Score;
  cit_content : string
}.

(** Result of the cross-grant comparison. *)
Record Comparison := mkComparison {
  comparison_type : string;
  analysis : string;
  grants_compared : option (list string);
  total_documents : option nat
}.

Record Relationships := mkRelationships {
  document_types : list (string * nat);
  common_themes : list (string * nat);
  reference_patterns : list string;
  coverage_gaps : list string
}.

(** The value stored under [cross_document_analysis]: either the bare
    [{"analysis": msg}] or the full record. *)
Inductive CrossAnalysis :=
| AnalysisOnly (msg : string)
| FullAnalysis (grant_groups : list (string * nat))
               (relationships : Relationships)
               (comparison : Comparison)
               (synthesized_answer : string)
               (total_grants_analyzed : nat)
               (cross_document_insights : nat).

(** The shared request state, a dict; [None] is an absent key. *)
Record State := mkState {
  query : option string;
  detected_language : option string;
  retrieved_documents : option (list Doc);
  grant_types_detected : option (list string);
  cross_document_analysis : option CrossAnalysis;
  qa_response : option string;
  sources : option (list Citation);
  cited_response : option string;
  retrieval_performed : option bool;
  cross_document_performed : option bool;
  qa_performed : option bool;
  source_tracking_performed : option bool
}.

Definition initial_state (q : string) : State :=
  mkState (Some q) None None None None None None None None None None None.

(** [state[key] = v] for each key the agents write. *)
Definition set_detected_language v (s : State) : State :=
  mkState (query s) (Some v) (retrieved_documents s) (grant_types_detected s)
    (cross_document_analysis s) (qa_response s) (sources s) (cited_response s)
    (retrieval_performed s) (cross_document_performed s) (qa_performed s)
    (source_tracking_performed s).
Definition set_retrieved_documents v (s : State) : State :=
  mkState (query s) (detected_language s) (Some v) (grant_types_detected s)
    (cross_document_analysis s) (qa_response s) (sources s) (cited_response s)
    (retrieval_performed s) (cross_document_performed s) (qa_performed s)
    (source_tracking_performed s).
Definition set_grant_types_detected v (s : State) : State :=
  mkState (query s) (detected_language s) (retrieved_documents s) (Some v)
    (cross_document_analysis s) (qa_response s) (sources s) (cited_response s)
    (retrieval_performed s) (cross_document_performed s) (qa_performed s)
    (source_tracking_performed s).
Definition set_cross_document_analysis v (s : State) : State :=
  mkState (query s) (detected_language s) (retrieved_documents s)
    (grant_types_detected s) (Some v) (qa_response s) (sources s)
    (cited_response s) (retrieval_performed s) (cross_document_performed s)
    (qa_performed s) (source_tracking_performed s).
Definition set_qa_response v (s : State) : State :=
  mkState (query s) (detected_language s) (retrieved_documents s)
    (grant_types_detected s) (cross_document_analysis s) (Some v) (sources s)
    (cited_response s) (retrieval_performed s) (cross_document_performed s)
    (qa_performed s) (source_tracking_performed s).
Definition set_sources v (s : State) : State :=
  mkState (query s) (detected_language s) (retrieved_documents s)
    (grant_types_detected s) (cross_document_analysis s) (qa_response s)
    (Some v) (cited_response s) (retrieval_performed s)
    (cross_document_performed s) (qa_performed s) (source_tracking_performed s).
Definition set_cited_response v (s : State) : State :=
  mkState (query s) (detected_language s) (retrieved_documents s)
    (grant_types_detected s) (cross_document_analysis s) (qa_response s)
    (sources s) (Some v) (retrieval_performed s) (cross_document_performed s)
    (qa_performed s) (source_tracking_performed s).
Definition set_retrieval_performed v (s : State) : State :=
  mkState (query s) (detected_language s) (retrieved_documents s)
    (grant_types_detected s) (cross_document_analysis s) (qa_response s)
    (sources s) (cited_response s) (Some v) (cross_document_performed s)
    (qa_performed s) (source_tracking_performed s).
Definition set_cross_document_performed v (s : State) : State :=
  mkState (query s) (detected_language s) (retrieved_documents s)
    (grant_types_detected s) (cross_document_analysis s) (qa_response s)
    (sources s) (cited_response s) (retrieval_performed s) (Some v)
    (qa_performed s) (source_tracking_performed s).
Definition set_qa_performed v (s : State) : State :=
  mkState (query s) (detected_language s) (retrieved_documents s)
    (grant_types_detected s) (cross_document_analysis s) (qa_response s)
    (sources s) (cited_response s) (retrieval_performed s)
    (cross_document_performed s) (Some v) (source_tracking_performed s).
Definition set_source_tracking_performed v (s : State) : State :=
  mkState (query s) (detected_language s) (retrieved_documents s)
    (grant_types_detected s) (cross_document_analysis s) (qa_response s)
    (sources s) (cited_response s) (retrieval_performed s)
    (cross_document_performed s) (qa_performed s) (Some v).

(** [d.get(key, dflt)]. *)
Definition get {A} (field : option A) (dflt : A) : A :=
  match field with Some v => v | None => dflt end.

(** The four completion flags, read as the supervisor reads them. *)
Definition flag (f : option bool) : bool := get f false.

(* ===================================================================== *)
(** * External collaborators and effects *)
(* ===================================================================== *)

(** A raised exception, identified by its message [str(e)]. *)
Inductive Res (A : Type) :=
| Ok (a : A)
| Raise (e : string).
Arguments Ok {A} a.
Arguments Raise {A} e.

(** What the language-model client hands back: an object with a [content]
    attribute, or some other object of which only [str(response)] is known. *)
Inductive Response :=
| WithContent (text : string)
| Plain (text : string).

(** The two outbound calls.  Each may raise (left injection, with the
    message) and may change the outside world, so that two calls with the
    same arguments need not agree. *)
Class External := {
  World : Type;
  (** [get_vector_store().similarity_search(query, k=k)] *)
  similarity_search : string -> nat -> World -> (string + list LDoc) * World;
  (** [llm.invoke(prompt)] *)
  llm_invoke : string -> World -> (string + Response) * World
}.

(** Text rendering that no property below depends on: the three
    [PromptTemplate.format] results and the whole-word, case-insensitive
    count [len(re.findall(rf'\b{theme}\b', text, re.IGNORECASE))]. *)
Class Rendering := {
  qa_prompt : string -> list Doc -> option CrossAnalysis -> string;
  comparison_prompt : list (string * list Doc) -> string -> string;
  synthesis_prompt : list (string * list Doc) -> string -> string;
  count_whole_word : string -> string -> nat
}.

(** Calls observed at the boundary, oldest first. *)
Inductive Event :=
| SearchCall (q : string) (k : nat)
| LlmCall (prompt : string).

Section Effects.
Context {E : External}.

Record Sys := mkSys { world : World; trace : list Event }.

(** Computations that call out: state passing over [Sys], with
    exceptions. *)
Definition M (A : Type) : Type := Sys -> Res A * Sys.

Definition ret {A} (a : A) : M A := fun sys => (Ok a, sys).
Definition raise {A} (e : string) : M A := fun sys => (Raise e, sys).
Definition bind {A B} (m : M A) (k : A -> M B) : M B :=
  fun sys =>
    match m sys with
    | (Ok a, sys') => k a sys'
    | (Raise e, sys') => (Raise e, sys')
    end.

(** [try: m  except Exception as e: handler(e)] *)
Definition try_except {A} (m : M A) (handler : string -> M A) : M A :=
  fun sys =>
    match m sys with
    | (Ok a, sys') => (Ok a, sys')
    | (Raise e, sys') => handler e sys'
    end.

Definition log (e : Event) (sys : Sys) : Sys :=
  mkSys (world sys) (trace sys ++ [e]).

Definition call_similarity_search (q : string) (k : nat) : M (list LDoc) :=
  fun sys =>
    let sys1 := log (SearchCall q k) sys in
    match similarity_search q k (world sys1) with
    | (inr docs, w) => (Ok docs, mkSys w (trace sys1))
    | (inl e, w) => (Raise e, mkSys w (trace sys1))
    end.

Definition call_llm_invoke (prompt : string) : M Response :=
  fun sys =>
    let sys1 := log (LlmCall prompt) sys in
    match llm_invoke prompt (world sys1) with
    | (inr r, w) => (Ok r, mkSys w (trace sys1))
    | (inl e, w) => (Raise e, mkSys w (trace sys1))
    end.

(** [ingestion/vector_store.py], [search_documents]: the whole body sits
    in a [try] whose handler returns the empty list. *)
Definition search_documents (q : string) (k : nat) : M (list LDoc) :=
  try_except (call_similarity_search q k) (fun _ => ret []).

End Effects.

Notation "'let*' x := m 'in' k" := (bind m (fun x => k))
  (at level 10, x name, m at level 100, k at level 200).

(* ===================================================================== *)
(** * Supervisor *)
(* ===================================================================== *)

Module Supervisor.

(** The targets of [Command(goto=...)]; [END] is ["__end__"]. *)
Inductive Goto :=
| document_retriever
| cross_document
| qa_agent
| source_tracker
| END.

(** [SupervisorAgent.execute] *)
Definition execute (state : State) : Goto :=
  let retrieval_performed := get (retrieval_performed state) false in
  let qa_performed := get (qa_performed state) false in
  let cross_document_performed := get (cross_document_performed state) false in
  let source_tracking_performed := get (source_tracking_performed state) false in
  if negb retrieval_performed then document_retriever
  else if negb cross_document_performed then cross_document
  else if negb qa_performed then qa_agent
  else if negb source_tracking_performed then source_tracker
  else END.

(** Position of a target in the pipeline. *)
Definition rank (g : Goto) : nat :=
  match g with
  | document_retriever => 0
  | cross_document => 1
  | qa_agent => 2
  | source_tracker => 3
  | END => 4
  end.

End Supervisor.

(* ===================================================================== *)
(** * Document retriever *)
(* ===================================================================== *)

Module DocumentRetriever.

Definition turkish_indicators : list string :=
  [ "nedir"; "nelerdir"; "nasıl"; "ne"; "hangi"; "için"; "ile"; "bir"; "bu"; "şu";
    "mı"; "mi"; "mu"; "mü"; "da"; "de"; "ta"; "te"; "la"; "le"; "ın"; "in"; "un"; "ün";
    "hibe"; "başvuru"; "proje"; "belgeler"; "kriterler"; "süreç" ].

Definition english_indicators : list string :=
  [ "what"; "how"; "which"; "where"; "when"; "why"; "is"; "are"; "the"; "and"; "or";
    "in"; "on"; "at"; "for"; "with"; "by"; "from"; "to"; "of"; "grant"; "application";
    "project"; "documents"; "criteria"; "process"; "requirements"; "eligibility";
    "personnel"; "costs"; "budget"; "funding"; "can"; "should"; "must"; "will";
    "this"; "that"; "these"; "those"; "do"; "does"; "did"; "have"; "has"; "had" ].

Definition italian_indicators : list string :=
  [ "che"; "cosa"; "come"; "quale"; "dove"; "quando"; "perché"; "è"; "sono"; "il"; "la";
    "di"; "a"; "da"; "in"; "con"; "su"; "per"; "tra"; "fra"; "sovvenzioni"; "domanda";
    "progetto"; "documenti"; "criteri"; "processo" ].

(** The three counters of [_detect_language]. *)
Definition score (indicators : list string) (text : string) : nat :=
  let text_lower := Py.lower text in
  let words := Py.split text_lower in
  Py.count (fun word => Py.in_list word indicators) words.

Definition _detect_language (text : string) : string :=
  let tr_score := score turkish_indicators text in
  let en_score := score english_indicators text in
  let it_score := score italian_indicators text in
  if ((en_score <=? tr_score) && (it_score <=? tr_score))%nat then "turkish"
  else if (it_score <=? en_score)%nat then "english"
  else "italian".

Definition irrelevant_patterns_tr : list string :=
  [ "merhaba"; "hey"; "selam"; "nasılsın"; "nasıl gidiyor";
    "günaydın"; "iyi akşamlar"; "teşekkürler"; "sağol";
    "hoşça kal"; "görüşürüz"; "naber"; "ne var ne yok" ].

Definition irrelevant_patterns_en : list string :=
  [ "hello"; "hi"; "hey"; "how are you"; "how is it going";
    "good morning"; "good evening"; "thank you"; "thanks";
    "goodbye"; "see you"; "what's up"; "how's life" ].

Definition grant_keywords_tr : list string :=
  [ "grant"; "hibe"; "amif"; "proje"; "başvuru"; "finansman";
    "bütçe"; "maliyet"; "personel"; "eligibility"; "uygunluk";
    "criteria"; "kriter"; "application"; "document"; "belge" ].

Definition grant_keywords_en : list string :=
  [ "grant"; "amif"; "project"; "application"; "funding";
    "budget"; "cost"; "personnel"; "eligibility"; "criteria";
    "documentation"; "requirement"; "guideline"; "procedure" ].

(** The body of [_is_query_relevant] once the greeting list is chosen. *)
Definition relevant_with (patterns : list string) (query : string) : bool :=
  let query_lower := Py.strip (Py.lower query) in
  let words := Py.split query_lower in
  if (length words <? 3)%nat && existsb (fun pattern => Py.contains pattern query_lower) patterns
  then false
  else
    let all_keywords := (grant_keywords_tr ++ grant_keywords_en)%list in
    let has_grant_keyword :=
      existsb (fun keyword => Py.contains keyword query_lower) all_keywords in
    if has_grant_keyword then true
    else if (length words <? 5)%nat && negb has_grant_keyword then false
    else (5 <=? length words)%nat.

Definition _is_query_relevant (query language : string) : bool :=
  let patterns :=
    if String.eqb language "tr" then irrelevant_patterns_tr
    else irrelevant_patterns_en in
  relevant_with patterns query.

Definition grant_mappings : list (string * list string) :=
  [ ("women", ["women"; "woman"; "kadın"; "kadınlar"; "female"; "gender"]);
    ("children", ["children"; "child"; "çocuk"; "çocuklar"; "youth"; "minors"]);
    ("health", ["health"; "sağlık"; "healthcare"; "medical"; "tıbbi"]);
    ("digital", ["digital"; "dijital"; "technology"; "teknoloji"; "online"]);
    ("pathways", ["pathways"; "education"; "eğitim"; "training"; "öğretim"]) ].

Definition _extract_grant_types_from_query (query : string) : list string :=
  let query_lower := Py.lower query in
  map fst
    (List.filter
       (fun entry => existsb (fun keyword => Py.contains keyword query_lower) (snd entry))
       grant_mappings).

Definition search_terms : list (string * string) :=
  [ ("women", "AMIF-2025 WOMEN grant eligibility criteria budget");
    ("children", "AMIF-2025 CHILDREN grant eligibility criteria budget");
    ("health", "AMIF-2025 HEALTH grant eligibility criteria budget");
    ("digital", "AMIF-2025 DIGITAL grant eligibility criteria budget");
    ("pathways", "AMIF-2025 PATHWAYS grant eligibility criteria budget") ].

Fixpoint dict_get {V} (d : list (string * V)) (key : string) (dflt : V) : V :=
  match d with
  | [] => dflt
  | (k, v) :: d' => if String.eqb k key then v else dict_get d' key dflt
  end.

(** [search_terms.get(grant_type, f'AMIF-2025 {grant_type.upper()}')] *)
Definition search_query (grant_type : string) : string :=
  dict_get search_terms grant_type ("AMIF-2025 " ++ Py.upper grant_type).

(** [{"content": doc.page_content, "metadata": doc.metadata}] *)
Definition to_dict (doc : LDoc) : Doc :=
  mkDoc (page_content doc) (ldoc_metadata doc) None.

(** [doc.metadata.get('source', '')] *)
Definition source_of (doc : LDoc) : string := get (source (ldoc_metadata doc)) "".

(** One round of the two identical [for doc in ...] loops of
    [_perform_multi_search]; the accumulator is
    [(all_documents, unique_sources)]. *)
Definition add_unique (acc : list Doc * gset string) (doc : LDoc)
  : list Doc * gset string :=
  let '(all_documents, unique_sources) := acc in
  let source := source_of doc in
  if decide (source ∈ unique_sources) then acc
  else ((all_documents ++ [to_dict doc])%list, {[source]} ∪ unique_sources).

Section WithBackend.
Context {E : External}.

(** [for grant_type in grant_types: ...] *)
Fixpoint search_grant_types (grant_types : list string)
         (acc : list Doc * gset string) : M (list Doc * gset string) :=
  match grant_types with
  | [] => ret acc
  | grant_type :: rest =>
      let* grant_results := search_documents (search_query grant_type) 4 in
      search_grant_types rest (fold_left add_unique grant_results acc)
  end.

Definition _perform_multi_search (query : string) (grant_types : list string)
  : M (list Doc) :=
  let* main_results := search_documents query 6 in
  let acc := fold_left add_unique main_results ([], ∅) in
  let* acc := search_grant_types grant_types acc in
  ret (fst acc).

(** The body of the [try] block of [execute]. *)
Definition retrieve (query detected_language : string) (state : State) : M State :=
  let grant_types := _extract_grant_types_from_query query in
  let* doc_dicts :=
    (if (2 <=? length grant_types)%nat
     then _perform_multi_search query grant_types
     else let* documents := search_documents query 8 in
          ret (map to_dict documents)) in
  ret (set_grant_types_detected grant_types
         (set_detected_language detected_language
            (set_retrieval_performed true
               (set_retrieved_documents doc_dicts state)))).

(** [DocumentRetrieverAgent.execute] *)
Definition execute (state : State) : M State :=
  let query := get (query state) "" in
  if negb (Py.truthy query)
  then ret (set_detected_language "tr"
              (set_retrieval_performed true
                 (set_retrieved_documents [] state)))
  else
    let detected_language := _detect_language query in
    let state := set_detected_language detected_language state in
    if negb (_is_query_relevant query detected_language)
    then ret (set_retrieval_performed true (set_retrieved_documents [] state))
    else
      try_except (retrieve query detected_language state)
        (fun e =>
           ret (set_detected_language detected_language
                  (set_retrieval_performed true
                     (set_retrieved_documents [] state)))).

End WithBackend.

End DocumentRetriever.

(* ===================================================================== *)
(** * Source tracker *)
(* ===================================================================== *)

Module SourceTracker.

(** The dedup key of a document: [(clean_source, page_number)]. *)
Definition clean_source_of (metadata : Metadata) : string :=
  let source_path := get (source metadata) "" in
  let clean_source := Py.replace ".pdf" "" (Py.replace "data/raw/" "" source_path) in
  if negb (Py.truthy clean_source)
  then get (filename metadata) "Bilinmeyen"
  else clean_source.

Definition page_number_of (metadata : Metadata) : PyVal :=
  get (page_number metadata) (get (page metadata) (PStr "")).

Definition source_key (doc : Doc) : string * PyVal :=
  (clean_source_of (metadata doc), page_number_of (metadata doc)).

(** The record appended for a document that is kept. *)
Definition citation_of (doc : Doc) : Citation :=
  let metadata := metadata doc in
  let source_path := get (source metadata) "" in
  let clean_source := clean_source_of metadata in
  let page_number := page_number_of metadata in
  let page_display :=
    if pyval_truthy page_number
    then "Sayfa " ++ pyval_str page_number
    else "Sayfa bilinmiyor" in
  mkCitation clean_source page_display source_path
    (get (chunk_index metadata) 0%Z)
    (get (similarity_score doc) score_zero)
    (Py.take 100 (content doc) ++ "...").

(** One round of the loop of [_extract_sources]; the accumulator is
    [(sources, seen_sources)]. *)
Definition track (acc : list Citation * gset (string * PyVal)) (doc : Doc)
  : list Citation * gset (string * PyVal) :=
  let '(sources, seen_sources) := acc in
  if decide (source_key doc ∈ seen_sources) then acc
  else ((sources ++ [citation_of doc])%list, {[source_key doc]} ∪ seen_sources).

Definition _extract_sources (documents : list Doc) : list Citation :=
  fst (fold_left track documents ([], ∅)).

Definition _add_citations (response : string) (sources : list Citation) : string :=
  response.

(** [SourceTrackerAgent.execute] *)
Definition execute (state : State) : State :=
  let retrieved_documents := get (retrieved_documents state) [] in
  let qa_response := get (qa_response state) "" in
  let state := set_source_tracking_performed true state in
  match retrieved_documents with
  | [] => set_cited_response qa_response (set_sources [] state)
  | _ =>
      let sources := _extract_sources retrieved_documents in
      let cited_response := _add_citations qa_response sources in
      set_cited_response cited_response (set_sources sources state)
  end.

End SourceTracker.

(* ===================================================================== *)
(** * Answer synthesizer *)
(* ===================================================================== *)

Module QA.

Definition simple_greetings : list string :=
  [ "hello"; "hi"; "hey"; "merhaba"; "selam"; "ciao"; "salve" ].

Definition out_of_scope_message : string :=
  "I'm designed to answer questions about AMIF grant documents. Please ask me about grant procedures, eligibility criteria, or application requirements.".

Definition insufficient_message : string :=
  "I couldn't find sufficient information to answer your question.".

(** The first test of [execute]: a query of fewer than three words that
    contains one of the greetings. *)
Definition is_small_talk (query : string) : bool :=
  (length (Py.split (Py.strip query)) <? 3)%nat
  && existsb (fun greeting => Py.contains greeting (Py.lower query)) simple_greetings.

Section WithLLM.
Context {E : External} {R : Rendering}.

(** [response.content]: an [AttributeError] when the attribute is
    missing. *)
Definition content_attr (response : Response) : M string :=
  match response with
  | WithContent text => ret text
  | Plain _ => raise "object has no attribute 'content'"
  end.

(** [QAAgent.execute] *)
Definition execute (state : State) : M State :=
  let query := get (query state) "" in
  let retrieved_documents := get (retrieved_documents state) [] in
  let cross_document_analysis := cross_document_analysis state in
  if is_small_talk query
  then ret (set_qa_performed true (set_qa_response out_of_scope_message state))
  else if negb (Py.truthy query) || (length retrieved_documents =? 0)%nat
  then ret (set_qa_performed true (set_qa_response insufficient_message state))
  else
    let prompt := qa_prompt query retrieved_documents cross_document_analysis in
    let* response := call_llm_invoke prompt in
    let* answer := content_attr response in
    ret (set_qa_performed true (set_qa_response answer state)).

End WithLLM.

End QA.

(* ===================================================================== *)
(** * Cross-document reasoner *)
(* ===================================================================== *)

(** The fragment of regular expressions used by the grant patterns:
    sequences of single characters and of greedy [+] repetitions, matched
    with [re.IGNORECASE]. *)
Module Regex.

Inductive CharClass :=
| Lit (c : ascii)        (* the character itself, in either case *)
| Digit                  (* \d *)
| NotChar (c : ascii).   (* [^c] *)

Inductive Atom :=
| One (cl : CharClass)
| Plus (cl : CharClass).

Definition class_matches (cl : CharClass) (a : ascii) : bool :=
  match cl with
  | Lit c => Ascii.eqb (Py.lower_char a) (Py.lower_char c)
  | Digit => Py.is_digit a
  | NotChar c => negb (Ascii.eqb (Py.lower_char a) (Py.lower_char c))
  end.

Fixpoint lits (s : string) : list Atom :=
  match s with
  | EmptyString => []
  | String c s' => One (Lit c) :: lits s'
  end.

(** The text matched by the pattern at the start of [s], if any.  A
    [Plus] first tries to take one more character and falls back to the
    rest of the pattern. *)
Fixpoint match_here (pattern : list Atom) (s : string) : option string :=
  match pattern with
  | [] => Some EmptyString
  | One cl :: pattern' =>
      match s with
      | String a s' =>
          if class_matches cl a
          then option_map (String a) (match_here pattern' s')
          else None
      | EmptyString => None
      end
  | Plus cl :: pattern' =>
      (fix plus (s : string) : option string :=
         match s with
         | String a s' =>
             if class_matches cl a
             then match plus s' with
                  | Some m => Some (String a m)
                  | None => option_map (String a) (match_here pattern' s')
                  end
             else None
         | EmptyString => None
         end) s
  end.

(** [re.findall(pattern, s)[0]] when the list is not empty: the leftmost
    match. *)
Fixpoint first_match (pattern : list Atom) (s : string) : option string :=
  match match_here pattern s with
  | Some m => Some m
  | None =>
      match s with
      | EmptyString => None
      | String _ s' => first_match pattern s'
      end
  end.

End Regex.

Module CrossDocument.
Import Regex.

Definition four_digits : list Atom := [One Digit; One Digit; One Digit; One Digit].

(** [AMIF-\d{4}-TF\d+-AG-[^_]+] and [AMIF-\d{4}-[^_]+] *)
Definition grant_patterns : list (list Atom) :=
  [ (lits "AMIF-" ++ four_digits ++ lits "-TF" ++ [Plus Digit] ++ lits "-AG-"
       ++ [Plus (NotChar "_")])%list;
    (lits "AMIF-" ++ four_digits ++ lits "-" ++ [Plus (NotChar "_")])%list ].

Definition grant_keywords : list (string * list string) :=
  [ ("AMIF-2025-TF2-AG-INTE-01-WOMEN", ["WOMEN"; "GENDER"; "FEMALE"]);
    ("AMIF-2025-TF2-AG-INTE-05-CHILDREN", ["CHILDREN"; "CHILD"; "MINORS"; "YOUTH"]);
    ("AMIF-2025-TF2-AG-INTE-02-HEALTH", ["HEALTH"; "MEDICAL"; "HEALTHCARE"]);
    ("AMIF-2025-TF2-AG-INTE-03-DIGITAL", ["DIGITAL"; "TECHNOLOGY"; "ONLINE"]);
    ("AMIF-2025-TF2-AG-INTE-04-PATHWAYS", ["PATHWAYS"; "EDUCATION"; "TRAINING"]) ].

(** [grant_groups[key].append(doc)] on a [defaultdict(list)]; the list of
    pairs keeps the insertion order of the keys. *)
Fixpoint dict_append (key : string) (doc : Doc) (d : list (string * list Doc))
  : list (string * list Doc) :=
  match d with
  | [] => [(key, [doc])]
  | (k, docs) :: d' =>
      if String.eqb k key then (k, (docs ++ [doc])%list) :: d'
      else (k, docs) :: dict_append key doc d'
  end.

(** [for pattern in grant_patterns: ... break] *)
Fixpoint first_pattern_match (patterns : list (list Atom)) (filename : string)
  : option string :=
  match patterns with
  | [] => None
  | pattern :: rest =>
      match first_match pattern filename with
      | Some m => Some (Py.upper m)
      | None => first_pattern_match rest filename
      end
  end.

(** One round of [for grant_id, keywords in grant_keywords.items()]; the
    accumulator is [(best_match, max_score)]. *)
Definition best_step (content : string) (acc : option string * nat)
           (entry : string * list string) : option string * nat :=
  let '(best_match, max_score) := acc in
  let '(grant_id, keywords) := entry in
  let score := Py.count (fun keyword => Py.contains keyword content) keywords in
  if (max_score <? score)%nat then (Some grant_id, score) else acc.

(** The body of the loop of [_extract_grant_groups]. *)
Definition assign (grant_groups : list (string * list Doc)) (doc : Doc)
  : list (string * list Doc) :=
  let metadata := metadata doc in
  let grant_group := get (grant_group metadata) "" in
  if Py.truthy grant_group && negb (String.eqb grant_group "unknown_grant")
  then dict_append grant_group doc grant_groups
  else
    let filename :=
      if Py.truthy (get (filename metadata) "")
      then get (filename metadata) ""
      else get (source metadata) "" in
    if Py.truthy filename
    then
      match first_pattern_match grant_patterns filename with
      | Some grant_id => dict_append grant_id doc grant_groups
      | None =>
          let content := Py.upper (content doc) in
          let '(best_match, max_score) :=
            fold_left (best_step content) grant_keywords (None, 0) in
          match best_match with
          | Some best =>
              if Py.truthy best && (0 <? max_score)%nat
              then dict_append best doc grant_groups
              else dict_append "UNKNOWN" doc grant_groups
          | None => dict_append "UNKNOWN" doc grant_groups
          end
      end
    else dict_append "UNKNOWN" doc grant_groups.

Definition _extract_grant_groups (documents : list Doc) : list (string * list Doc) :=
  fold_left assign documents [].

Definition _identify_document_types (filename : string) : string :=
  let filename_lower := Py.lower filename in
  if Py.contains "call-fiche" filename_lower || Py.contains "call_fiche" filename_lower
  then "call_document"
  else if Py.contains "faq" filename_lower then "faq"
  else if Py.contains "template" filename_lower then "template"
  else if Py.contains "guide" filename_lower || Py.contains "guideline" filename_lower
  then "guide"
  else if Py.contains "aga" filename_lower then "administrative_guide"
  else if Py.contains "evaluation" filename_lower then "evaluation_guide"
  else "other".

Definition key_themes : list string :=
  [ "eligibility"; "budget"; "personnel"; "cost"; "application";
    "deadline"; "criteria"; "evaluation"; "implementation";
    "uygunluk"; "bütçe"; "personel"; "maliyet"; "başvuru";
    "kriterler"; "değerlendirme"; "uygulama" ].

(** [counter[key] += 1] on a [defaultdict(int)]. *)
Fixpoint dict_incr (key : string) (d : list (string * nat)) : list (string * nat) :=
  match d with
  | [] => [(key, 1)]
  | (k, n) :: d' =>
      if String.eqb k key then (k, S n) :: d' else (k, n) :: dict_incr key d'
  end.

(** [sep.join(parts)] *)
Fixpoint join (sep : string) (parts : list string) : string :=
  match parts with
  | [] => ""
  | [p] => p
  | p :: rest => p ++ sep ++ join sep rest
  end.

Section WithLLM.
Context {E : External} {R : Rendering}.

Definition _analyze_document_relationships (documents : list Doc) : Relationships :=
  let document_types :=
    fold_left
      (fun counts doc =>
         dict_incr (_identify_document_types (get (filename (metadata doc)) "")) counts)
      documents [] in
  let all_content := join " " (map content documents) in
  let common_themes :=
    flat_map
      (fun theme =>
         let count := count_whole_word theme all_content in
         if (0 <? count)%nat then [(theme, count)] else [])
      key_themes in
  mkRelationships document_types common_themes [] [].

(** [response.content if hasattr(response, 'content') else str(response)] *)
Definition response_text (response : Response) : string :=
  match response with WithContent text => text | Plain text => text end.

Definition _perform_cross_grant_comparison
           (grant_groups : list (string * list Doc)) (query : string)
  : M Comparison :=
  if (length grant_groups <? 2)%nat
  then ret (mkComparison "single_grant" "Tek grant analizi" None None)
  else
    try_except
      (let* response := call_llm_invoke (comparison_prompt grant_groups query) in
       ret (mkComparison "cross_grant" (response_text response)
              (Some (map fst grant_groups))
              (Some (list_sum (map (fun g => length (snd g)) grant_groups)))))
      (fun e =>
         ret (mkComparison "error" ("Karşılaştırma hatası: " ++ e)
                (Some (map fst grant_groups)) None)).

Definition _synthesize_cross_document_answer
           (documents : list Doc) (query : string)
           (grant_groups : list (string * list Doc)) : M string :=
  try_except
    (let* response := call_llm_invoke (synthesis_prompt grant_groups query) in
     ret (response_text response))
    (fun e => ret ("Belge sentezi hatası: " ++ e)).

(** [CrossDocumentAgent.execute] *)
Definition execute (state : State) : M State :=
  let documents := get (retrieved_documents state) [] in
  let query := get (query state) "" in
  if (length documents =? 0)%nat || negb (Py.truthy query)
  then ret (set_cross_document_performed true
              (set_cross_document_analysis
                 (AnalysisOnly "Yeterli belge bulunamadı") state))
  else
    try_except
      (let grant_groups := _extract_grant_groups documents in
       let relationships := _analyze_document_relationships documents in
       let* comparison_result := _perform_cross_grant_comparison grant_groups query in
       let* synthesized_answer :=
         _synthesize_cross_document_answer documents query grant_groups in
       ret (set_cross_document_performed true
              (set_cross_document_analysis
                 (FullAnalysis
                    (map (fun g => (fst g, length (snd g))) grant_groups)
                    relationships comparison_result synthesized_answer
                    (length grant_groups)
                    (length (common_themes relationships)))
                 state)))
      (fun e =>
         ret (set_cross_document_performed true
                (set_cross_document_analysis
                   (AnalysisOnly ("Analiz hatası: " ++ e)) state))).

End WithLLM.

End CrossDocument.

(* ===================================================================== *)
(** * The pipeline driver and reference notions used in the statements *)
(* ===================================================================== *)

Section Driver.
Context {E : External} {R : Rendering}.

(** Modelled from the spec: the wiring of the agents into a graph is not
    part of the sources.  Section 4.7 has the component named by the
    supervisor run to completion before the supervisor is asked again. *)
Definition run_agent (target : Supervisor.Goto) (state : State) : M State :=
  match target with
  | Supervisor.document_retriever => DocumentRetriever.execute state
  | Supervisor.cross_document => CrossDocument.execute state
  | Supervisor.qa_agent => QA.execute state
  | Supervisor.source_tracker => ret (SourceTracker.execute state)
  | Supervisor.END => ret state
  end.

(** Modelled from the spec: one round of the graph of section 4.7, the
    supervisor followed by the component it names. *)
Definition step (state : State) : M State :=
  run_agent (Supervisor.execute state) state.

End Driver.

Section Answers.
Context {E : External}.

(** What [search_documents] makes of the outcome of a backend call: a call
    that raises counts as an empty answer. *)
Definition answer (r : string + list LDoc) : list LDoc :=
  match r with inr docs => docs | inl _ => [] end.

(** The answers to a sequence of calls, the world being threaded through
    them in order. *)
Fixpoint search_all (calls : list (string * nat)) (w : World)
  : list (list LDoc) * World :=
  match calls with
  | [] => ([], w)
  | (q, k) :: rest =>
      let '(r, w1) := similarity_search q k w in
      let '(rs, w2) := search_all rest w1 in
      (answer r :: rs, w2)
  end.

End Answers.

(** A flag may only go from false to true. *)
Definition flags_le (s s' : State) : Prop :=
  (flag (retrieval_performed s) = true -> flag (retrieval_performed s') = true)
  /\ (flag (cross_document_performed s) = true -> flag (cross_document_performed s') = true)
  /\ (flag (qa_performed s) = true -> flag (qa_performed s') = true)
  /\ (flag (source_tracking_performed s) = true -> flag (source_tracking_performed s') = true).

(** First occurrences: an element is kept when its key is neither in
    [seen] nor the key of an earlier element. *)
Fixpoint keep_first {A K : Type} `{Countable K} (key : A -> K) (seen : gset K)
         (l : list A) : list A :=
  match l with
  | [] => []
  | x :: l' =>
      if decide (key x ∈ seen) then keep_first key seen l'
      else x :: keep_first key ({[key x]} ∪ seen) l'
  end.

(** The group key that [_extract_grant_groups] settles on for a document. *)
Definition grant_key (doc : Doc) : string :=
  let metadata := metadata doc in
  let grant_group := get (grant_group metadata) "" in
  if Py.truthy grant_group && negb (String.eqb grant_group "unknown_grant")
  then grant_group
  else
    let filename :=
      if Py.truthy (get (filename metadata) "")
      then get (filename metadata) ""
      else get (source metadata) "" in
    if Py.truthy filename
    then
      match CrossDocument.first_pattern_match CrossDocument.grant_patterns filename with
      | Some grant_id => grant_id
      | None =>
          match fold_left (CrossDocument.best_step (Py.upper (content doc)))
                          CrossDocument.grant_keywords (None, 0) with
          | (Some best, max_score) =>
              if Py.truthy best && (0 <? max_score)%nat then best else "UNKNOWN"
          | (None, _) => "UNKNOWN"
          end
      end
    else "UNKNOWN".

(** The calls of the multi-search strategy after the raw-query call, the
    events they leave in the trace, and the expanded query of a category. *)
Definition category_calls (grant_types : list string) : list (string * nat) :=
  map (fun grant_type => (DocumentRetriever.search_query grant_type, 4)) grant_types.

Definition multi_search_calls (query : string) (grant_types : list string)
  : list (string * nat) :=
  (query, 6) :: category_calls grant_types.

Definition search_events (calls : list (string * nat)) : list Event :=
  map (fun c => SearchCall (fst c) (snd c)) calls.


(** What an agent does to the four flags: it sets its own and resets none. *)
Definition sets_only (own : State -> option bool) (s s' : State) : Prop :=
  own s' = Some true /\ flags_le s s'.

(** The tags that [_detect_language] returns. *)
Definition detected_languages : list string := ["turkish"; "english"; "italian"].

(** [d[key]] with the empty list for a missing key. *)
Fixpoint members (key : string) (d : list (string * list Doc)) : list Doc :=
  match d with
  | [] => []
  | (k, docs) :: d' => if String.eqb k key then docs else members key d'
  end.

(** Grouping by an arbitrary key function, and what holds of the
    dictionary after the documents [seen] have been grouped. *)
Definition group_step (key : Doc -> string) (groups : list (string * list Doc))
           (doc : Doc) : list (string * list Doc) :=
  CrossDocument.dict_append (key doc) doc groups.

Definition grouped (key : Doc -> string) (seen : list Doc)
           (groups : list (string * list Doc)) : Prop :=
  NoDup (groups.*1)
  /\ (forall k, members k groups = filter (fun d => key d = k) seen)
  /\ (forall k, k ∈ groups.*1 <-> exists d, d ∈ seen /\ key d = k)
  /\ concat (groups.*2) ≡ₚ seen.

(* ===================================================================== *)
(** * Test doubles for the external collaborators *)
(* ===================================================================== *)

Definition plain_rendering : Rendering :=
  {| qa_prompt := fun q _ _ => q;
     comparison_prompt := fun _ q => q;
     synthesis_prompt := fun _ q => q;
     count_whole_word := fun _ _ => 0 |}.

Definition women_doc : LDoc :=
  mkLDoc "Eligibility criteria for the women call"
    (mkMetadata (Some "data/raw/AMIF-2025-TF2-AG-INTE-01-WOMEN_call-fiche.pdf")
       (Some "AMIF-2025-TF2-AG-INTE-01-WOMEN_call-fiche.pdf")
       (Some (PStr "3")) None (Some "AMIF-2025-TF2-AG-INTE-01-WOMEN")
       (Some "call_document") (Some 0%Z)).

Definition children_doc : LDoc :=
  mkLDoc "Eligibility criteria for the children call"
    (mkMetadata (Some "data/raw/AMIF-2025-TF2-AG-INTE-05-CHILDREN_call-fiche.pdf")
       (Some "AMIF-2025-TF2-AG-INTE-05-CHILDREN_call-fiche.pdf")
       (Some (PStr "7")) None (Some "AMIF-2025-TF2-AG-INTE-05-CHILDREN")
       (Some "call_document") (Some 2%Z)).

(** A backend and a model that both answer. *)
Definition healthy : External :=
  {| World := unit;
     similarity_search := fun q k w =>
       (inr (if String.eqb q "AMIF-2025 CHILDREN grant eligibility criteria budget"
             then [children_doc; women_doc] else [women_doc]), w);
     llm_invoke := fun prompt w => (inr (WithContent "answer"), w) |}.




Definition compare_query : string :=
  "Compare the WOMEN and CHILDREN grants' eligibility criteria".


(* ===================================================================== *)
(** * Sanity checks on concrete inputs *)
(* ===================================================================== *)

(** The string layer against CPython. *)
Example split_ex : Py.split "  What is  the grant " = ["What"; "is"; "the"; "grant"].
Proof. reflexivity. Qed.
Example split_empty : Py.split "" = [].
Proof. reflexivity. Qed.
Example strip_ex : Py.strip "  hi there  " = "hi there".
Proof. reflexivity. Qed.
Example replace_ex :
  Py.replace ".pdf" "" (Py.replace "data/raw/" "" "data/raw/AMIF_call-fiche.pdf")
  = "AMIF_call-fiche".
Proof. reflexivity. Qed.
Example replace_overlap : Py.replace "aa" "b" "aaaaa" = "bba".
Proof. reflexivity. Qed.
Example lower_ex : Py.lower "Hello AMIF-2025" = "hello amif-2025".
Proof. reflexivity. Qed.
Example contains_ex : Py.contains "hi" "which grant" = true.
Proof. reflexivity. Qed.

(** The grant patterns: the longer pattern wins, matching ignores case and
    stops at the first underscore. *)
Example pattern_full :
  CrossDocument.first_pattern_match CrossDocument.grant_patterns
    "docs/amif-2025-tf2-ag-inte-01-women_call-fiche_en.pdf"
  = Some "AMIF-2025-TF2-AG-INTE-01-WOMEN".
Proof. reflexivity. Qed.
Example pattern_short :
  CrossDocument.first_pattern_match CrossDocument.grant_patterns "AMIF-2024-guide_v2.pdf"
  = Some "AMIF-2024-GUIDE".
Proof. reflexivity. Qed.
Example pattern_none :
  CrossDocument.first_pattern_match CrossDocument.grant_patterns "AMIF-25-guide.pdf" = None.
Proof. reflexivity. Qed.

(** Keyword fallback: the first table entry with the highest count. *)
Example keyword_fallback :
  grant_key (mkDoc "Health and medical care for women"
               (mkMetadata None (Some "notes.pdf") None None (Some "unknown_grant") None None)
               None)
  = "AMIF-2025-TF2-AG-INTE-02-HEALTH".
Proof. reflexivity. Qed.
Example keyword_tie :
  grant_key (mkDoc "digital health for women"
               (mkMetadata None (Some "notes.pdf") None None None None None) None)
  = "AMIF-2025-TF2-AG-INTE-01-WOMEN".
Proof. reflexivity. Qed.
Example no_filename :
  grant_key (mkDoc "women" no_metadata None) = "UNKNOWN".
Proof. reflexivity. Qed.

(** The scenario of section 8: two documents of each of two grants. *)
Example two_groups_of_two :
  map (fun g => (fst g, length (snd g)))
      (CrossDocument._extract_grant_groups
         (DocumentRetriever.to_dict <$> [women_doc; children_doc; children_doc; women_doc]))
  = [("AMIF-2025-TF2-AG-INTE-01-WOMEN", 2); ("AMIF-2025-TF2-AG-INTE-05-CHILDREN", 2)].
Proof. reflexivity. Qed.

Example detect_english : DocumentRetriever._detect_language "What is the budget" = "english".
Proof. reflexivity. Qed.
Example detect_italian : DocumentRetriever._detect_language "che cosa" = "italian".
Proof. reflexivity. Qed.
Example hello_not_relevant :
  DocumentRetriever._is_query_relevant "hello" (DocumentRetriever._detect_language "hello")
  = false.
Proof. reflexivity. Qed.
Example compare_types :
  DocumentRetriever._extract_grant_types_from_query compare_query = ["women"; "children"].
Proof. reflexivity. Qed.

Example citations_of_duplicates :
  map (fun c => (cit_clean_source c, cit_page c))
      (SourceTracker._extract_sources
         (DocumentRetriever.to_dict <$> [women_doc; children_doc; women_doc]))
  = [("AMIF-2025-TF2-AG-INTE-01-WOMEN_call-fiche", "Sayfa 3");
     ("AMIF-2025-TF2-AG-INTE-05-CHILDREN_call-fiche", "Sayfa 7")].
Proof. vm_compute. reflexivity. Qed.

(* ===================================================================== *)
(** * Shared lemmas *)
(* ===================================================================== *)


Section KeepFirst.
Context {A K : Type} `{Countable K} (key : A -> K).








End KeepFirst.

(* ===================================================================== *)
(** * The outbound calls *)
(* ===================================================================== *)

Section CallLemmas.
Context {E : External}.

(** [search_documents] never raises: a failure of the backend is logged
    as a call and answered by the empty list. *)
Lemma search_documents_eq q k sys :
  search_documents q k sys
  = (Ok (answer (fst (similarity_search q k (world sys)))),
     mkSys (snd (similarity_search q k (world sys)))
           (trace sys ++ [SearchCall q k])).
Proof.
  unfold search_documents, try_except, call_similarity_search, log; simpl.
  destruct (similarity_search q k (world sys)) as [[e|docs] w]; reflexivity.
Qed.

Lemma call_llm_invoke_eq prompt sys :
  call_llm_invoke prompt sys
  = (match fst (llm_invoke prompt (world sys)) with
     | inr r => Ok r
     | inl e => Raise e
     end,
     mkSys (snd (llm_invoke prompt (world sys))) (trace sys ++ [LlmCall prompt])).
Proof.
  unfold call_llm_invoke, log; simpl.
  destruct (llm_invoke prompt (world sys)) as [[e|r] w]; reflexivity.
Qed.

Lemma fold_add_unique docs acc seen :
  fst (fold_left DocumentRetriever.add_unique docs (acc, seen))
  = (acc ++ (DocumentRetriever.to_dict
               <$> keep_first DocumentRetriever.source_of seen docs))%list.
Proof.
  revert acc seen. induction docs as [|d docs IH]; intros acc seen; simpl.
  - now rewrite app_nil_r.
  - destruct (decide (DocumentRetriever.source_of d ∈ seen)) as [Hin|Hout].
    + apply IH.
    + rewrite IH, fmap_cons, <- app_assoc. reflexivity.
Qed.

Lemma fold_add_unique_seen docs acc seen :
  snd (fold_left DocumentRetriever.add_unique docs (acc, seen))
  = list_to_set (DocumentRetriever.source_of <$> docs) ∪ seen.
Proof.
  revert acc seen. induction docs as [|d docs IH]; intros acc seen; simpl.
  - set_solver.
  - destruct (decide (DocumentRetriever.source_of d ∈ seen)) as [Hin|Hout];
      rewrite IH; set_solver.
Qed.

Lemma keep_first_app_seen (l1 l2 : list LDoc) (seen : gset string) :
  keep_first DocumentRetriever.source_of seen (l1 ++ l2)
  = (keep_first DocumentRetriever.source_of seen l1
     ++ keep_first DocumentRetriever.source_of
          (list_to_set (DocumentRetriever.source_of <$> l1) ∪ seen) l2)%list.
Proof.
  revert seen. induction l1 as [|x l1 IH]; intros seen; simpl.
  - f_equal. set_solver.
  - destruct (decide (DocumentRetriever.source_of x ∈ seen)) as [Hin|Hout].
    + rewrite IH. do 2 f_equal. set_solver.
    + rewrite IH. simpl. do 3 f_equal. set_solver.
Qed.

Lemma search_grant_types_eq grant_types all_documents seen sys :
  exists seen',
    DocumentRetriever.search_grant_types grant_types (all_documents, seen) sys
    = (Ok ((all_documents
            ++ (DocumentRetriever.to_dict
                  <$> keep_first DocumentRetriever.source_of seen
                        (concat (fst (search_all (category_calls grant_types)
                                                 (world sys))))))%list,
           seen'),
       mkSys (snd (search_all (category_calls grant_types) (world sys)))
             (trace sys ++ search_events (category_calls grant_types))).
Proof.
  revert all_documents seen sys.
  induction grant_types as [|t ts IH]; intros all_documents seen sys; simpl.
  - exists seen. unfold ret. rewrite !app_nil_r. destruct sys; reflexivity.
  - unfold bind. rewrite search_documents_eq.
    destruct (similarity_search (DocumentRetriever.search_query t) 4 (world sys))
      as [r w1] eqn:Hcall; simpl.
    set (acc := fold_left DocumentRetriever.add_unique (answer r) (all_documents, seen)).
    destruct acc as [docs1 seen1] eqn:Hacc.
    pose proof (fold_add_unique (answer r) all_documents seen) as Hdocs.
    pose proof (fold_add_unique_seen (answer r) all_documents seen) as Hseen.
    fold acc in Hdocs, Hseen. rewrite Hacc in Hdocs, Hseen. simpl in Hdocs, Hseen.
    destruct (IH docs1 seen1
                (mkSys w1 (trace sys ++ [SearchCall (DocumentRetriever.search_query t) 4])))
      as (seen' & ->).
    exists seen'. simpl.
    destruct (search_all (category_calls ts) w1) as [rs w2]; simpl.
    rewrite keep_first_app_seen, fmap_app, Hdocs, Hseen, <- !app_assoc.
    reflexivity.
Qed.

Lemma perform_multi_search_eq query grant_types sys :
  DocumentRetriever._perform_multi_search query grant_types sys
  = (Ok (DocumentRetriever.to_dict
           <$> keep_first DocumentRetriever.source_of ∅
                 (concat (fst (search_all (multi_search_calls query grant_types)
                                          (world sys))))),
     mkSys (snd (search_all (multi_search_calls query grant_types) (world sys)))
           (trace sys ++ search_events (multi_search_calls query grant_types))).
Proof.
  unfold DocumentRetriever._perform_multi_search, bind.
  rewrite search_documents_eq. simpl.
  destruct (similarity_search query 6 (world sys)) as [r w1] eqn:Hcall; simpl.
  set (acc := fold_left DocumentRetriever.add_unique (answer r) ([], ∅)).
  destruct acc as [docs1 seen1] eqn:Hacc.
  pose proof (fold_add_unique (answer r) [] ∅) as Hdocs.
  pose proof (fold_add_unique_seen (answer r) [] ∅) as Hseen.
  fold acc in Hdocs, Hseen. rewrite Hacc in Hdocs, Hseen. simpl in Hdocs, Hseen.
  destruct (search_grant_types_eq grant_types docs1 seen1
              (mkSys w1 (trace sys ++ [SearchCall query 6]))) as (seen' & ->).
  simpl. destruct (search_all (category_calls grant_types) w1) as [rs w2]; simpl.
  unfold ret. rewrite keep_first_app_seen, fmap_app, Hdocs, Hseen, <- !app_assoc.
  reflexivity.
Qed.

End CallLemmas.

(* ===================================================================== *)
(** * Supervisor: dispatch order *)
(* ===================================================================== *)

Section Flags.
Context {E : External} {R : Rendering}.

Lemma retrieve_returns query language state sys :
  exists doc_dicts sys',
    DocumentRetriever.retrieve query language state sys
    = (Ok (set_grant_types_detected
             (DocumentRetriever._extract_grant_types_from_query query)
             (set_detected_language language
                (set_retrieval_performed true
                   (set_retrieved_documents doc_dicts state)))), sys').
Proof.
  unfold DocumentRetriever.retrieve, bind.
  destruct (2 <=? length (DocumentRetriever._extract_grant_types_from_query query))%nat.
  - rewrite perform_multi_search_eq. eexists _, _. reflexivity.
  - rewrite search_documents_eq. eexists _, _. reflexivity.
Qed.

Lemma retriever_returns state sys :
  exists state' sys',
    DocumentRetriever.execute state sys = (Ok state', sys')
    /\ sets_only retrieval_performed state state'.
Proof.
  unfold DocumentRetriever.execute.
  destruct (negb (Py.truthy (get (query state) ""))).
  { eexists _, _. split; [reflexivity|]. split; [reflexivity|].
    unfold flags_le; simpl; tauto. }
  destruct (negb (DocumentRetriever._is_query_relevant _ _)).
  { eexists _, _. split; [reflexivity|]. split; [reflexivity|].
    unfold flags_le; simpl; tauto. }
  unfold try_except.
  edestruct retrieve_returns as (docs & sys' & ->).
  eexists _, _. split; [reflexivity|]. split; [reflexivity|].
  unfold flags_le; simpl; tauto.
Qed.

Lemma comparison_returns groups query sys :
  exists c sys',
    CrossDocument._perform_cross_grant_comparison groups query sys = (Ok c, sys').
Proof.
  unfold CrossDocument._perform_cross_grant_comparison.
  destruct (length groups <? 2)%nat; [eexists _, _; reflexivity|].
  unfold try_except, bind. rewrite call_llm_invoke_eq.
  destruct (fst (llm_invoke _ _)); eexists _, _; reflexivity.
Qed.

Lemma synthesis_returns documents query groups sys :
  exists a sys',
    CrossDocument._synthesize_cross_document_answer documents query groups sys
    = (Ok a, sys').
Proof.
  unfold CrossDocument._synthesize_cross_document_answer, try_except, bind.
  rewrite call_llm_invoke_eq.
  destruct (fst (llm_invoke _ _)); eexists _, _; reflexivity.
Qed.

Lemma cross_document_returns state sys :
  exists state' sys',
    CrossDocument.execute state sys = (Ok state', sys')
    /\ sets_only cross_document_performed state state'.
Proof.
  unfold CrossDocument.execute.
  destruct (_ || _).
  { eexists _, _. split; [reflexivity|]. split; [reflexivity|].
    unfold flags_le; simpl; tauto. }
  unfold try_except, bind.
  edestruct comparison_returns as (c & sys1 & ->).
  edestruct synthesis_returns as (a & sys2 & ->).
  eexists _, _. split; [reflexivity|]. split; [reflexivity|].
  unfold flags_le; simpl; tauto.
Qed.

Lemma qa_sets_flag state sys state' sys' :
  QA.execute state sys = (Ok state', sys') ->
  sets_only qa_performed state state'.
Proof.
  unfold QA.execute.
  destruct (QA.is_small_talk _).
  { intros [= <- <-]. split; [reflexivity|]. unfold flags_le; simpl; tauto. }
  destruct (_ || _).
  { intros [= <- <-]. split; [reflexivity|]. unfold flags_le; simpl; tauto. }
  unfold bind. rewrite call_llm_invoke_eq.
  destruct (fst (llm_invoke _ _)) as [e|[text|text]]; simpl; try discriminate.
  intros [= <- <-]. split; [reflexivity|]. unfold flags_le; simpl; tauto.
Qed.

Lemma source_tracker_sets_flag state :
  sets_only source_tracking_performed state (SourceTracker.execute state).
Proof.
  unfold SourceTracker.execute.
  destruct (get (retrieved_documents state) []);
    (split; [reflexivity|]; unfold flags_le; simpl; tauto).
Qed.

Lemma rank_monotone s s' :
  flags_le s s' ->
  Supervisor.rank (Supervisor.execute s) <= Supervisor.rank (Supervisor.execute s').
Proof.
  unfold flags_le, Supervisor.execute, flag.
  intros (Hr & Hc & Hq & Hs).
  destruct (get (retrieval_performed s) false); simpl; [|lia].
  rewrite (Hr eq_refl); simpl.
  destruct (get (cross_document_performed s) false); simpl;
    [|destruct (get (cross_document_performed s') false); simpl;
      [destruct (get (qa_performed s') false); simpl;
       [destruct (get (source_tracking_performed s') false); simpl; lia|lia]|lia]].
  rewrite (Hc eq_refl); simpl.
  destruct (get (qa_performed s) false); simpl;
    [|destruct (get (qa_performed s') false); simpl;
      [destruct (get (source_tracking_performed s') false); simpl; lia|lia]].
  rewrite (Hq eq_refl); simpl.
  destruct (get (source_tracking_performed s) false); simpl;
    [|destruct (get (source_tracking_performed s') false); simpl; lia].
  rewrite (Hs eq_refl); simpl. lia.
Qed.

Lemma rank_advances own target s s' :
  Supervisor.execute s = target ->
  match target with
  | Supervisor.document_retriever => own = retrieval_performed
  | Supervisor.cross_document => own = cross_document_performed
  | Supervisor.qa_agent => own = qa_performed
  | Supervisor.source_tracker => own = source_tracking_performed
  | Supervisor.END => False
  end ->
  sets_only own s s' ->
  Supervisor.rank (Supervisor.execute s) < Supervisor.rank (Supervisor.execute s').
Proof.
  intros Ht Hown (Hset & Hle).
  unfold flags_le, flag in Hle. destruct Hle as (Hr & Hc & Hq & Hs).
  revert Ht. unfold Supervisor.execute.
  destruct (get (retrieval_performed s) false) eqn:Er; simpl.
  2:{ intros <-. subst own. unfold get at 1. rewrite Hset. simpl.
      destruct (negb _); simpl; [lia|].
      destruct (negb _); simpl; [lia|]. destruct (negb _); simpl; lia. }
  rewrite (Hr eq_refl); simpl.
  destruct (get (cross_document_performed s) false) eqn:Ec; simpl.
  2:{ intros <-. subst own. unfold get at 1. rewrite Hset. simpl.
      destruct (negb _); simpl; [lia|]. destruct (negb _); simpl; lia. }
  rewrite (Hc eq_refl); simpl.
  destruct (get (qa_performed s) false) eqn:Eq; simpl.
  2:{ intros <-. subst own. unfold get at 1. rewrite Hset. simpl.
      destruct (negb _); simpl; lia. }
  rewrite (Hq eq_refl); simpl.
  destruct (get (source_tracking_performed s) false) eqn:Es; simpl.
  2:{ intros <-. subst own. unfold get at 1. rewrite Hset. simpl. lia. }
  intros <-. contradiction.
Qed.

End Flags.

(** C2.  The supervisor tests the four completion flags in the order
    retrieval, cross-document, qa, source tracking and names the first
    component whose flag is still false, or the terminal state when all
    four are true.  The position of the named component in the pipeline
    never decreases while flags only go from false to true, and it
    strictly increases each time the named component has run to
    completion. *)
Theorem supervisor_dispatch_order (E : External) (R : Rendering) (s : State) :
  (flag (retrieval_performed s) = false ->
   Supervisor.execute s = Supervisor.document_retriever)
  /\ (flag (retrieval_performed s) = true ->
      flag (cross_document_performed s) = false ->
      Supervisor.execute s = Supervisor.cross_document)
  /\ (flag (retrieval_performed s) = true ->
      flag (cross_document_performed s) = true ->
      flag (qa_performed s) = false ->
      Supervisor.execute s = Supervisor.qa_agent)
  /\ (flag (retrieval_performed s) = true ->
      flag (cross_document_performed s) = true ->
      flag (qa_performed s) = true ->
      flag (source_tracking_performed s) = false ->
      Supervisor.execute s = Supervisor.source_tracker)
  /\ (flag (retrieval_performed s) = true ->
      flag (cross_document_performed s) = true ->
      flag (qa_performed s) = true ->
      flag (source_tracking_performed s) = true ->
      Supervisor.execute s = Supervisor.END)
  /\ (forall s', flags_le s s' ->
        Supervisor.rank (Supervisor.execute s)
        <= Supervisor.rank (Supervisor.execute s'))
  /\ (forall sys s' sys',
        Supervisor.execute s <> Supervisor.END ->
        step s sys = (Ok s', sys') ->
        flags_le s s'
        /\ Supervisor.rank (Supervisor.execute s)
           < Supervisor.rank (Supervisor.execute s')).
Proof.
  unfold flag.
  split; [|split; [|split; [|split; [|split; [|split]]]]].
  - unfold Supervisor.execute. now intros ->.
  - unfold Supervisor.execute. now intros -> ->.
  - unfold Supervisor.execute. now intros -> -> ->.
  - unfold Supervisor.execute. now intros -> -> -> ->.
  - unfold Supervisor.execute. now intros -> -> -> ->.
  - apply rank_monotone.
  - intros sys s' sys' Hnot Hrun.
    assert (Hset : exists own,
               match Supervisor.execute s with
               | Supervisor.document_retriever => own = retrieval_performed
               | Supervisor.cross_document => own = cross_document_performed
               | Supervisor.qa_agent => own = qa_performed
               | Supervisor.source_tracker => own = source_tracking_performed
               | Supervisor.END => False
               end /\ sets_only own s s').
    { unfold step in Hrun.
      destruct (Supervisor.execute s); cbn [run_agent] in Hrun.
      - destruct (retriever_returns s sys) as (s1 & sys1 & Heq & Hset).
        rewrite Heq in Hrun. injection Hrun as <- <-. eauto.
      - destruct (cross_document_returns s sys) as (s1 & sys1 & Heq & Hset).
        rewrite Heq in Hrun. injection Hrun as <- <-. eauto.
      - eauto using qa_sets_flag.
      - injection Hrun as <- <-. eauto using source_tracker_sets_flag.
      - contradiction. }
    destruct Hset as (own & Hown & Hset). split; [apply Hset|].
    eapply rank_advances; [reflexivity | exact Hown | exact Hset].
Qed.

Lemma supervisor_dispatch_order_witness :
  Supervisor.execute (set_retrieval_performed true (initial_state "hello"))
  = Supervisor.cross_document.
Proof.
  apply (supervisor_dispatch_order healthy plain_rendering
           (set_retrieval_performed true (initial_state "hello")));
    reflexivity.
Defined.

(* ===================================================================== *)
(** * Language detection and relevance *)
(* ===================================================================== *)




(** C10.  The language tags that [_detect_language] can produce all select
    the English greeting list in [_is_query_relevant], the Turkish list
    being chosen for the tag ["tr"] only; the relevance of a query
    therefore does not depend on which of the three tags is passed. *)
Theorem relevance_independent_of_language (q l1 l2 : string)
        (H1 : l1 ∈ detected_languages) (H2 : l2 ∈ detected_languages) :
  DocumentRetriever._is_query_relevant q l1 = DocumentRetriever._is_query_relevant q l2
  /\ DocumentRetriever._is_query_relevant q l1
     = DocumentRetriever.relevant_with DocumentRetriever.irrelevant_patterns_en q
  /\ (forall text, DocumentRetriever._detect_language text ∈ detected_languages)
  /\ "tr" ∉ detected_languages.
Proof.
  assert (Hen : forall l, l ∈ detected_languages ->
                DocumentRetriever._is_query_relevant q l
                = DocumentRetriever.relevant_with
                    DocumentRetriever.irrelevant_patterns_en q).
  { intros l Hl. unfold DocumentRetriever._is_query_relevant.
    unfold detected_languages in Hl.
    repeat (apply elem_of_cons in Hl as [->|Hl]; [reflexivity|]).
    inversion Hl. }
  repeat split.
  - now rewrite !Hen.
  - now apply Hen.
  - intros text. unfold DocumentRetriever._detect_language, detected_languages.
    destruct (_ && _); [set_solver|]. destruct (_ <=? _)%nat; set_solver.
  - unfold detected_languages. intros Htr.
    repeat (apply elem_of_cons in Htr as [Htr|Htr]; [discriminate|]).
    inversion Htr.
Qed.

Lemma relevance_independent_of_language_witness :
  DocumentRetriever._is_query_relevant "merhaba" "turkish"
  = DocumentRetriever._is_query_relevant "merhaba" "italian".
Proof.
  apply (relevance_independent_of_language "merhaba" "turkish" "italian");
    unfold detected_languages; set_solver.
Defined.

(* ===================================================================== *)
(** * Source tracker: pass-through *)
(* ===================================================================== *)

(** C9.  The source tracker always sets its completion flag, writes the
    incoming answer text unchanged as [cited_response], stores the empty
    citation list when there is no retrieved document, and touches no
    other entry of the state. *)
Theorem source_tracker_pass_through (s : State) :
  let s' := SourceTracker.execute s in
  source_tracking_performed s' = Some true
  /\ cited_response s' = Some (get (qa_response s) "")
  /\ (get (retrieved_documents s) [] = [] -> sources s' = Some [])
  /\ sources s' = Some (SourceTracker._extract_sources (get (retrieved_documents s) []))
  /\ (forall response cits, SourceTracker._add_citations response cits = response)
  /\ qa_response s' = qa_response s
  /\ query s' = query s
  /\ detected_language s' = detected_language s
  /\ retrieved_documents s' = retrieved_documents s
  /\ grant_types_detected s' = grant_types_detected s
  /\ cross_document_analysis s' = cross_document_analysis s
  /\ retrieval_performed s' = retrieval_performed s
  /\ cross_document_performed s' = cross_document_performed s
  /\ qa_performed s' = qa_performed s.
Proof.
  unfold SourceTracker.execute.
  destruct (get (retrieved_documents s) []) as [|d docs] eqn:Hdocs; simpl;
    repeat split; try reflexivity; intros; discriminate.
Qed.

Lemma source_tracker_pass_through_witness :
  sources (SourceTracker.execute
             (set_qa_response QA.insufficient_message (initial_state "hello")))
  = Some [].
Proof.
  destruct (source_tracker_pass_through
              (set_qa_response QA.insufficient_message (initial_state "hello")))
    as (_ & _ & Hempty & _).
  apply Hempty. reflexivity.
Defined.

(* ===================================================================== *)
(** * Answer synthesizer: short-circuits and failure *)
(* ===================================================================== *)







(* ===================================================================== *)
(** * Source tracker: deduplication *)
(* ===================================================================== *)




(* ===================================================================== *)
(** * Retriever: search strategy and failure containment *)
(* ===================================================================== *)



Section RetrieverStrategy.
Context {E : External}.



End RetrieverStrategy.







(* ===================================================================== *)
(** * Grant grouping *)
(* ===================================================================== *)

Lemma assign_grant_key (groups : list (string * list Doc)) (doc : Doc) :
  CrossDocument.assign groups doc
  = CrossDocument.dict_append (grant_key doc) doc groups.
Proof.
  unfold CrossDocument.assign, grant_key.
  destruct (Py.truthy (get (grant_group (metadata doc)) "")
            && negb (String.eqb (get (grant_group (metadata doc)) "") "unknown_grant"));
    [reflexivity|].
  destruct (Py.truthy (if Py.truthy (get (filename (metadata doc)) "")
                       then get (filename (metadata doc)) ""
                       else get (source (metadata doc)) "")); [|reflexivity].
  destruct (CrossDocument.first_pattern_match _ _); [reflexivity|].
  destruct (fold_left _ _ _) as [[best|] max_score]; [|reflexivity].
  destruct (Py.truthy best && (0 <? max_score)%nat); reflexivity.
Qed.

Section Grouping.
Variable key : Doc -> string.

Lemma members_dict_append k k' doc groups :
  members k' (CrossDocument.dict_append k doc groups)
  = if decide (k = k') then (members k' groups ++ [doc])%list
    else members k' groups.
Proof.
  induction groups as [|[k0 ds] groups IH]; simpl.
  - destruct (String.eqb_spec k k'), (decide (k = k')); congruence.
  - destruct (String.eqb_spec k0 k) as [->|Hne]; simpl.
    + destruct (String.eqb_spec k k'), (decide (k = k')); congruence.
    + destruct (String.eqb_spec k0 k') as [->|Hne'].
      * destruct (decide (k = k')); congruence.
      * exact IH.
Qed.

Lemma keys_dict_append k doc groups :
  (CrossDocument.dict_append k doc groups).*1
  = if decide (k ∈ groups.*1) then groups.*1 else (groups.*1 ++ [k])%list.
Proof.
  induction groups as [|[k0 ds] groups IH]; cbn [CrossDocument.dict_append].
  - rewrite decide_False; [reflexivity | apply not_elem_of_nil].
  - rewrite (fmap_cons fst (k0, ds) groups). cbn [fst].
    destruct (String.eqb_spec k0 k) as [->|Hne].
    + rewrite decide_True; [reflexivity | left].
    + rewrite fmap_cons, IH. cbn [fst].
      destruct (decide (k ∈ groups.*1)) as [Hin|Hout].
      * rewrite decide_True; [reflexivity | now right].
      * rewrite decide_False; [reflexivity|].
        intros Hin. apply elem_of_cons in Hin as [->|Hin]; contradiction.
Qed.

Lemma in_members k ms groups :
  NoDup (groups.*1) -> (k, ms) ∈ groups -> members k groups = ms.
Proof.
  induction groups as [|[k0 ds] groups IH]; simpl; intros Hnd Hin.
  - inversion Hin.
  - apply NoDup_cons in Hnd as [Hk0 Hnd].
    apply elem_of_cons in Hin as [[= -> ->]|Hin].
    + now rewrite String.eqb_refl.
    + destruct (String.eqb_spec k0 k) as [->|Hne]; [|now apply IH].
      exfalso. apply Hk0. apply list_elem_of_fmap. exists (k, ms). split; [reflexivity | exact Hin].
Qed.

Lemma members_in k groups :
  k ∈ groups.*1 -> (k, members k groups) ∈ groups.
Proof.
  induction groups as [|[k0 ds] groups IH]; simpl; intros Hin.
  - inversion Hin.
  - destruct (String.eqb_spec k0 k) as [->|Hne]; [left|].
    apply elem_of_cons in Hin as [->|Hin]; [contradiction|].
    right. now apply IH.
Qed.

Lemma concat_dict_append k doc groups :
  concat ((CrossDocument.dict_append k doc groups).*2)
  ≡ₚ (concat (groups.*2) ++ [doc])%list.
Proof.
  induction groups as [|[k0 ds] groups IH]; simpl.
  - reflexivity.
  - destruct (String.eqb_spec k0 k) as [->|Hne]; simpl.
    + rewrite <- !app_assoc. apply Permutation_app_head, Permutation_app_comm.
    + rewrite IH. now rewrite app_assoc.
Qed.

Lemma grouped_nil : grouped key [] [].
Proof.
  split; [constructor|]. split; [reflexivity|]. split; [|reflexivity].
  intros k. split; [intros Hin; inversion Hin|].
  intros (d & Hd & _). inversion Hd.
Qed.

Lemma grouped_step seen groups doc :
  grouped key seen groups -> grouped key (seen ++ [doc]) (group_step key groups doc).
Proof.
  intros (Hnd & Hmem & Hkeys & Hperm). unfold group_step.
  split; [|split; [|split]].
  - rewrite keys_dict_append.
    destruct (decide (key doc ∈ groups.*1)) as [Hin|Hout]; [exact Hnd|].
    apply NoDup_app. split; [exact Hnd|]. split; [|apply NoDup_singleton].
    intros x Hx Hx'. apply list_elem_of_singleton in Hx'. subst x. contradiction.
  - intros k. rewrite members_dict_append, filter_app, Hmem.
    rewrite filter_cons, filter_nil.
    destruct (decide (key doc = k)); [reflexivity | now rewrite app_nil_r].
  - intros k. rewrite keys_dict_append.
    assert (Hiff : k ∈ (groups.*1 ++ [key doc])%list
                   <-> exists d, d ∈ (seen ++ [doc])%list /\ key d = k).
    { rewrite elem_of_app, Hkeys, list_elem_of_singleton. split.
      - intros [(d & Hd & Hk)| ->].
        + exists d. split; [apply elem_of_app; now left | exact Hk].
        + exists doc. split; [apply elem_of_app; right; now left | reflexivity].
      - intros (d & Hd & Hk). apply elem_of_app in Hd as [Hd|Hd].
        + left. eauto.
        + apply list_elem_of_singleton in Hd. subst d. now right. }
    destruct (decide (key doc ∈ groups.*1)) as [Hin|Hout]; [|exact Hiff].
    rewrite <- Hiff, elem_of_app, list_elem_of_singleton.
    split; [now left|]. intros [Hk| ->]; assumption.
  - rewrite concat_dict_append, Hperm. reflexivity.
Qed.

Lemma grouped_fold docs seen groups :
  grouped key seen groups ->
  grouped key (seen ++ docs) (fold_left (group_step key) docs groups).
Proof.
  revert seen groups. induction docs as [|d docs IH]; intros seen groups Hg; simpl.
  - now rewrite app_nil_r.
  - replace (seen ++ d :: docs)%list with ((seen ++ [d]) ++ docs)%list
      by now rewrite <- app_assoc.
    apply IH, grouped_step, Hg.
Qed.

End Grouping.

Lemma extract_grant_groups_fold (docs : list Doc) groups :
  fold_left CrossDocument.assign docs groups
  = fold_left (group_step grant_key) docs groups.
Proof.
  revert groups. induction docs as [|d docs IH]; intros groups; simpl.
  - reflexivity.
  - rewrite assign_grant_key. apply IH.
Qed.

(** C1.  [_extract_grant_groups] returns a dictionary whose keys are
    distinct and in which the members of a key are, in input order, exactly
    the documents that the grouping rules assign to that key; no member
    list is empty.  Hence every document is in the group of its own key and
    in no group of another key, and the member lists together hold the
    input documents, each as often as it occurs. *)
Theorem grouping_totality (docs : list Doc) :
  let groups := CrossDocument._extract_grant_groups docs in
  NoDup (groups.*1)
  /\ (forall k ms, (k, ms) ∈ groups ->
        ms <> [] /\ ms = filter (fun d => grant_key d = k) docs)
  /\ (forall d, d ∈ docs -> exists ms, (grant_key d, ms) ∈ groups /\ d ∈ ms)
  /\ (forall d k1 k2 ms1 ms2,
        (k1, ms1) ∈ groups -> (k2, ms2) ∈ groups ->
        d ∈ ms1 -> d ∈ ms2 -> k1 = k2)
  /\ concat (groups.*2) ≡ₚ docs
  /\ (forall k ms, (k, ms) ∈ groups -> sublist ms docs).
Proof.
  intros groups.
  destruct (grouped_fold grant_key docs [] [] (grouped_nil grant_key))
    as (Hnd & Hmem & Hkeys & Hperm).
  rewrite <- extract_grant_groups_fold in Hnd, Hmem, Hkeys, Hperm.
  simpl in Hmem, Hkeys, Hperm.
  fold (CrossDocument._extract_grant_groups docs) in Hnd, Hmem, Hkeys, Hperm.
  fold groups in Hnd, Hmem, Hkeys, Hperm.
  assert (Hfilter : forall k ms, (k, ms) ∈ groups ->
                                 ms = filter (fun d => grant_key d = k) docs).
  { intros k ms Hin. rewrite <- Hmem. symmetry. now apply in_members. }
  split; [exact Hnd|]. split; [|split; [|split; [|split]]].
  - intros k ms Hin. split; [|now apply Hfilter].
    assert (Hk : k ∈ groups.*1).
    { apply list_elem_of_fmap. exists (k, ms). split; [reflexivity | exact Hin]. }
    apply Hkeys in Hk as (d & Hd & Hkd).
    assert (Hdm : d ∈ ms).
    { rewrite (Hfilter _ _ Hin). apply list_elem_of_filter. now split. }
    intros ->. inversion Hdm.
  - intros d Hd. exists (members (grant_key d) groups). split.
    + apply members_in, Hkeys. eauto.
    + rewrite Hmem. apply list_elem_of_filter. split; [reflexivity | exact Hd].
  - intros d k1 k2 ms1 ms2 H1 H2 Hd1 Hd2.
    rewrite (Hfilter _ _ H1) in Hd1. rewrite (Hfilter _ _ H2) in Hd2.
    apply list_elem_of_filter in Hd1 as [<- _].
    apply list_elem_of_filter in Hd2 as [<- _]. reflexivity.
  - exact Hperm.
  - intros k ms Hin. rewrite (Hfilter _ _ Hin). apply sublist_filter.
Qed.

Lemma grouping_totality_witness :
  exists ms,
    (grant_key (DocumentRetriever.to_dict children_doc), ms)
    ∈ CrossDocument._extract_grant_groups
        (DocumentRetriever.to_dict <$> [women_doc; children_doc; women_doc])
    /\ DocumentRetriever.to_dict children_doc ∈ ms.
Proof.
  destruct (grouping_totality
              (DocumentRetriever.to_dict <$> [women_doc; children_doc; women_doc]))
    as (_ & _ & Hin & _).
  apply Hin. simpl. set_solver.
Defined.
